(** * RoomOverridesSection: the per-room notification override list

    A shallow embedding of
    [src/components/views/settings/notifications/RoomOverridesSection.tsx]
    and the properties of its two function components,
    [RoomOverrideTile] and [RoomOverridesSection].

    Layout of the development:
    - [Js]: the JavaScript values the component computes with ([===],
      truthiness, [||], [??]);
    - [Dom]: the React element trees a render produces, with handlers and
      dialog callbacks as data;
    - [Imports]: the interface of the modules the file imports and calls
      but does not define;
    - [Effects]: the browser-side world (the notification store and the
      queries made on it, the window, the open dialogs) and the state and
      exception monad renders run in;
    - [RoomOverrides]: the functions of the file;
    - [Sample]: one concrete environment, used to run the theorems;
    - the theorems. *)

From Stdlib Require Import String List ZArith Bool Lia PrimFloat.
Import ListNotations.
Local Open Scope string_scope.

Set Implicit Arguments.

(* ===================================================================== *)
(** ** JavaScript values *)
(* ===================================================================== *)

Module Js.

(** The primitive values that reach the component.  Numbers are the
    integers plus [NaN]; nothing in the component does arithmetic on a
    level. *)
Inductive JsVal : Type :=
| JsUndefined
| JsNull
| JsBool (b : bool)
| JsNumber (z : Z)
| JsNaN
| JsString (s : string).

(** [a === b] on primitives: same type and same value, [NaN] apart. *)
Definition strict_eq (a b : JsVal) : bool :=
  match a, b with
  | JsUndefined, JsUndefined => true
  | JsNull, JsNull => true
  | JsBool x, JsBool y => Bool.eqb x y
  | JsNumber x, JsNumber y => Z.eqb x y
  | JsString x, JsString y => String.eqb x y
  | _, _ => false
  end.

(** ToBoolean. *)
Definition truthy (v : JsVal) : bool :=
  match v with
  | JsUndefined | JsNull | JsNaN => false
  | JsBool b => b
  | JsNumber z => negb (Z.eqb z 0)
  | JsString s => negb (String.eqb s "")
  end.

Definition is_nullish (v : JsVal) : bool :=
  match v with
  | JsUndefined | JsNull => true
  | _ => false
  end.

(** [a || b], the operator the component uses. *)
Definition js_or (a b : JsVal) : JsVal := if truthy a then a else b.

(** [a ?? b], the operator the specification names. *)
Definition nullish_coalesce (a b : JsVal) : JsVal :=
  if is_nullish a then b else a.

End Js.
Export Js.

(* ===================================================================== *)
(** ** The level enumeration *)
(* ===================================================================== *)

(** The members of [NotificationSetting] that the file names.  The
    declaration itself lives in [notifications/types]; the value each
    member has at run time is a parameter of the development (see
    [Imports]). *)
Inductive NotificationSetting : Type :=
| AllMessages
| DirectMessagesMentionsKeywords
| MentionsKeywordsOnly
| Never.

Definition NotificationSetting_eqb (a b : NotificationSetting) : bool :=
  match a, b with
  | AllMessages, AllMessages
  | DirectMessagesMentionsKeywords, DirectMessagesMentionsKeywords
  | MentionsKeywordsOnly, MentionsKeywordsOnly
  | Never, Never => true
  | _, _ => false
  end.

(** An enum declaration gives every member a run-time value. *)
Definition EnumDecl : Type := NotificationSetting -> JsVal.

(** Members are told apart by [===] (and equal to themselves: no [NaN]). *)
Definition enum_distinct (E : EnumDecl) : Prop :=
  forall a b, strict_eq (E a) (E b) = NotificationSetting_eqb a b.

(** No member is a falsy value ([0] or the empty string). *)
Definition enum_truthy (E : EnumDecl) : Prop :=
  forall a, truthy (E a) = true.

(** What a store query for an override may answer: nothing set
    ([undefined] or [null]), or a member of the enumeration. *)
Definition override_value (E : EnumDecl) (v : JsVal) : Prop :=
  is_nullish v = true \/ exists n, v = E n.

(** The three levels a single room can be set to: the choices of the
    tile's menu. *)
Definition menuLevels : list NotificationSetting :=
  [AllMessages; MentionsKeywordsOnly; Never].

(* ===================================================================== *)
(** ** React element trees *)
(* ===================================================================== *)

Module Dom.

(** The functions the component hands to its children as [onClick].  They
    are kept as data; [RoomOverrides.dispatch] runs them. *)
Inductive Handler : Type :=
| H_openMenu
| H_closeMenu
| H_onResetAllRoomsClick.

(** The one callback the component hands to a dialog. *)
Inductive Callback : Type :=
| CB_resetAllRooms_onFinished.

(** The member of [ChevronFace] the file names. *)
Inductive ChevronFace : Type :=
| ChevronFace_None.

(** The reference the tile attaches to its menu button. *)
Inductive Ref : Type :=
| Ref_button.

(** What the component reads of a room of the client. *)
Record Room : Type := { Room_name : string }.

(** What [inPlaceOf] reads of the button's bounding rectangle.  The
    coordinates are JavaScript numbers the code does arithmetic on: IEEE
    754 binary64 values, fractional as a rule. *)
Record DOMRect : Type := { rect_right : float; rect_top : float }.

(** The value of a property: a primitive written in the source or a
    level ([PVal]), a number computed in binary64 ([PNumber]), a handler,
    a room, a reference, a chevron face. *)
Inductive PropVal : Type :=
| PVal (v : JsVal)
| PNumber (x : float)
| PHandler (h : Handler)
| PRoom (room : option Room)
| PRef (r : Ref)
| PChevronFace (c : ChevronFace).

Inductive ElementType : Type :=
| Host (tag : string)
| Component (name : string).

Definition ElementType_eqb (a b : ElementType) : bool :=
  match a, b with
  | Host x, Host y => String.eqb x y
  | Component x, Component y => String.eqb x y
  | _, _ => false
  end.

(** A rendered child: an expression child [{e}] holding a primitive (a
    string shows as text, [undefined] shows nothing), an array child, or
    an element.  Child components stay unexpanded, as in the value a
    function component returns. *)
#[warnings="-register-all"]
Inductive VNode : Type :=
| VValue (v : JsVal)
| VArray (items : list VNode)
| VElement (type : ElementType) (key : option string)
           (props : list (string * PropVal)) (children : list VNode).

Definition VText (s : string) : VNode := VValue (JsString s).
Definition VUndefined : VNode := VValue JsUndefined.

Definition children_of (n : VNode) : list VNode :=
  match n with
  | VElement _ _ _ c => c
  | _ => []
  end.

Fixpoint get_prop (name : string) (props : list (string * PropVal)) : option PropVal :=
  match props with
  | [] => None
  | (k, v) :: rest => if String.eqb k name then Some v else get_prop name rest
  end.

Definition prop_of (name : string) (n : VNode) : option PropVal :=
  match n with
  | VElement _ _ p _ => get_prop name p
  | _ => None
  end.

(** Every element of the given type in a tree, in document order. *)
Fixpoint elementsOfType (ty : ElementType) (n : VNode) : list VNode :=
  match n with
  | VValue _ => []
  | VArray items => flat_map (elementsOfType ty) items
  | VElement t _ _ c =>
      (if ElementType_eqb t ty then [n] else [])
        ++ flat_map (elementsOfType ty) c
  end.

End Dom.
Export Dom.

(* ===================================================================== *)
(** ** What the file imports *)
(* ===================================================================== *)

(** The modules the component imports and calls into.  None of them is
    defined in the file, so each is an operation of this interface:
    - [notifications/types]: the run-time values of [NotificationSetting]
      and [roundRoomNotificationSetting];
    - [languageHandler]: the translation lookup [_t];
    - [NotificationSettingStore]: the store and its three queries;
    - [MatrixClient]: the room lookup of the client in context. *)
Class Imports : Type := {
  NotificationSetting_value : EnumDecl;
  roundRoomNotificationSetting : string -> JsVal -> JsVal;
  _t : string -> string;
  Store : Type;
  getRoomNotifyOverride : Store -> string -> JsVal;
  getRoomSoundOverride : Store -> string -> JsVal;
  getOverridenRooms : Store -> list string;
  MatrixClient : Type;
  getRoom : MatrixClient -> string -> option Room
}.

(* ===================================================================== *)
(** ** The world a render runs in, and the monad of renders *)
(* ===================================================================== *)

Module Effects.

(** A query made on the store. *)
Inductive StoreCall : Type :=
| Call_getRoomNotifyOverride (roomId : string)
| Call_getRoomSoundOverride (roomId : string)
| Call_getOverridenRooms.

Definition is_getOverridenRooms (c : StoreCall) : bool :=
  match c with
  | Call_getOverridenRooms => true
  | _ => false
  end.

(** The properties [onResetAllRoomsClick] passes to
    [Modal.createTrackedDialog]. *)
Record Dialog : Type := {
  analyticsAction : string;
  analyticsInfo : string;
  Element : string;
  title : string;
  description : string;
  button : string;
  cancelButton : string;
  onFinished : Callback
}.

Inductive Exn : Type :=
| TypeError_null_property (object property : string).

Inductive Result (A : Type) : Type :=
| Ok (a : A)
| Throw (e : Exn).
Arguments Throw {A} e.

Section WithImports.
Context {X : Imports}.

(** [storeCalls] is the trace of the queries made on the store so far,
    oldest first; [dialogs] the dialogs opened through [Modal]. *)
Record World : Type := {
  store : Store;
  storeCalls : list StoreCall;
  innerWidth : float;
  dialogs : list Dialog
}.

(** State over [World], with exceptions; the world reached at a throw is
    kept. *)
Definition M (A : Type) : Type := World -> Result A * World.

Definition ret {A} (a : A) : M A := fun w => (Ok a, w).

Definition bind {A B} (m : M A) (k : A -> M B) : M B :=
  fun w =>
    match m w with
    | (Ok a, w') => k a w'
    | (Throw e, w') => (Throw e, w')
    end.

Definition throw {A} (e : Exn) : M A := fun w => (Throw e, w).

Definition logCall (c : StoreCall) (w : World) : World :=
  {| store := store w; storeCalls := storeCalls w ++ [c];
     innerWidth := innerWidth w; dialogs := dialogs w |}.

(** [store.getRoomNotifyOverride(roomId)] *)
Definition store_getRoomNotifyOverride (roomId : string) : M JsVal :=
  fun w => (Ok (getRoomNotifyOverride (store w) roomId),
            logCall (Call_getRoomNotifyOverride roomId) w).

(** [store.getRoomSoundOverride(roomId)] *)
Definition store_getRoomSoundOverride (roomId : string) : M JsVal :=
  fun w => (Ok (getRoomSoundOverride (store w) roomId),
            logCall (Call_getRoomSoundOverride roomId) w).

(** [store.getOverridenRooms()] *)
Definition store_getOverridenRooms : M (list string) :=
  fun w => (Ok (getOverridenRooms (store w)), logCall Call_getOverridenRooms w).

(** [window.innerWidth] *)
Definition window_innerWidth : M float := fun w => (Ok (innerWidth w), w).

(** [Modal.createTrackedDialog(...)]: the dialog is opened. *)
Definition Modal_createTrackedDialog (d : Dialog) : M unit :=
  fun w => (Ok tt,
            {| store := store w; storeCalls := storeCalls w;
               innerWidth := innerWidth w; dialogs := dialogs w ++ [d] |}).

(** Something outside the component replaces the state of the store (the
    user clears an override elsewhere, a sync arrives). *)
Definition replaceStore (s : Store) (w : World) : World :=
  {| store := s; storeCalls := storeCalls w;
     innerWidth := innerWidth w; dialogs := dialogs w |}.

End WithImports.

End Effects.
Export Effects.

Declare Scope render_scope.
Delimit Scope render_scope with render.
Notation "x <- m ;; k" := (bind m (fun x => k))
  (at level 61, m at next level, right associativity) : render_scope.
Notation "m ;;; k" := (bind m (fun _ => k))
  (at level 61, right associativity) : render_scope.

(* ===================================================================== *)
(** ** The component *)
(* ===================================================================== *)

Module RoomOverrides.

Section WithImports.
Context {X : Imports}.
Local Open Scope render_scope.

(** [interface IProps] *)
Record IProps : Type := {
  notifyMeWith : JsVal;
  playSoundFor : JsVal
}.

(** [interface IRoomOverrideTileProps] *)
Record IRoomOverrideTileProps : Type := {
  tile_notifyMeWith : JsVal;
  tile_playSoundFor : JsVal;
  roomId : string
}.

(** [mapNotificationLevelToString]: a [switch] compares with [===], case
    by case in the order written; [DirectMessagesMentionsKeywords] falls
    through to [MentionsKeywordsOnly], and [Never] to [default]. *)
Definition mapNotificationLevelToString (level : JsVal) : string :=
  if strict_eq level (NotificationSetting_value AllMessages) then
    _t "All Messages"
  else if strict_eq level (NotificationSetting_value DirectMessagesMentionsKeywords)
          || strict_eq level (NotificationSetting_value MentionsKeywordsOnly) then
    _t "Mentions & Keywords"
  else if strict_eq level (NotificationSetting_value Never) then
    _t "None"
  else
    _t "None".

(** [inPlaceOf] *)
Definition inPlaceOf (elementRect : DOMRect) : M (list (string * PropVal)) :=
  width <- window_innerWidth ;;
  ret [("right", PNumber (width - rect_right elementRect - 48)%float);
       ("top", PNumber (rect_top elementRect - 24)%float);
       ("chevronOffset", PVal (JsNumber 0));
       ("chevronFace", PChevronFace ChevronFace_None)].

(** What [useContextMenu()] hands to a render: whether the menu is open,
    and what the button reference points to ([None] while no button is
    attached). *)
Record ContextMenuHook : Type := {
  menuDisplayed : bool;
  button_current : option DOMRect
}.

(** [openMenu] and [closeMenu], the setters of the hook. *)
Definition openMenu (cm : ContextMenuHook) : ContextMenuHook :=
  {| menuDisplayed := true; button_current := button_current cm |}.

Definition closeMenu (cm : ContextMenuHook) : ContextMenuHook :=
  {| menuDisplayed := false; button_current := button_current cm |}.

(** [useState(initial)]: the initial value counts on the first render
    only ([slot = None]); later renders return the state kept in the slot. *)
Definition useState {A} (slot : option A) (initialState : A) : A :=
  match slot with
  | Some state => state
  | None => initialState
  end.

(** [useRef(initial).current]: as [useState], for a reference nobody
    assigns to. *)
Definition useRef_current {A} (slot : option A) (initialValue : A) : A :=
  match slot with
  | Some current => current
  | None => initialValue
  end.

(** [setOverrides], called by the store's room-override-changed event. *)
Definition setOverrides (payload : JsVal * JsVal) : option (JsVal * JsVal) :=
  Some payload.

(** [button.current.getBoundingClientRect()] *)
Definition getBoundingClientRect (current : option DOMRect) : M DOMRect :=
  match current with
  | Some rect => ret rect
  | None => throw (TypeError_null_property "button.current" "getBoundingClientRect")
  end.

(** [room.name] *)
Definition room_name (room : option Room) : M string :=
  match room with
  | Some r => ret (Room_name r)
  | None => throw (TypeError_null_property "room" "name")
  end.

(** Lines 78 to 82: the four levels a tile computes. *)
Record Levels : Type := {
  roundedNotifyMeWith : JsVal;
  roundedPlaySoundFor : JsVal;
  notifyLevel : JsVal;
  soundLevel : JsVal
}.

Definition resolveLevels (props : IRoomOverrideTileProps)
    (overrides : JsVal * JsVal) : Levels :=
  let '(notifyLevelOverride, soundLevelOverride) := overrides in
  let roundedNotifyMeWith :=
    roundRoomNotificationSetting (roomId props) (tile_notifyMeWith props) in
  let roundedPlaySoundFor :=
    roundRoomNotificationSetting (roomId props) (tile_playSoundFor props) in
  {| roundedNotifyMeWith := roundedNotifyMeWith;
     roundedPlaySoundFor := roundedPlaySoundFor;
     notifyLevel := js_or notifyLevelOverride roundedNotifyMeWith;
     soundLevel := js_or soundLevelOverride roundedPlaySoundFor |}.

(** [<span>({_t("default")})</span>] *)
Definition defaultTag : VNode :=
  VElement (Host "span") None [] [VText "("; VText (_t "default"); VText ")"].

(** One [<MenuItem>] of the menu; the three in the source differ in the
    class name and the level only. *)
Definition menuItem (className : string) (level : NotificationSetting)
    (lv : Levels) : VNode :=
  VElement (Component "MenuItem") None
    [("kind", PVal (JsString "link"));
     ("className", PVal (JsString className));
     ("aria-selected",
      PVal (JsBool (strict_eq (notifyLevel lv) (NotificationSetting_value level))));
     ("onClick", PHandler H_closeMenu)]
    [VText (mapNotificationLevelToString (NotificationSetting_value level));
     if strict_eq (roundedNotifyMeWith lv) (NotificationSetting_value level)
     then defaultTag else VUndefined].

(** Whether a rendered child is the "(default)" tag, and whether a menu
    item carries it. *)
Definition isDefaultTag (n : VNode) : bool :=
  match n with
  | VElement (Host tag) None []
      [VValue (JsString l); VValue (JsString d); VValue (JsString r)] =>
      String.eqb tag "span" && String.eqb l "(" && String.eqb d (_t "default")
        && String.eqb r ")"
  | _ => false
  end.

Definition hasDefaultTag (item : VNode) : bool :=
  existsb isDefaultTag (children_of item).

Definition menuItems (lv : Levels) : list VNode :=
  [menuItem "mx_NotificationsTab_RoomOverrideTile_ContextMenu_allMessages"
            AllMessages lv;
   menuItem "mx_NotificationsTab_RoomOverrideTile_ContextMenu_mentionsKeywords"
            MentionsKeywordsOnly lv;
   menuItem "mx_NotificationsTab_RoomOverrideTile_ContextMenu_none"
            Never lv].

(** Lines 86 to 120: [contextMenu] stays [undefined] while the menu is
    closed. *)
Definition contextMenu (cm : ContextMenuHook) (lv : Levels) : M VNode :=
  if menuDisplayed cm then
    buttonRect <- getBoundingClientRect (button_current cm) ;;
    place <- inPlaceOf buttonRect ;;
    ret (VElement (Component "ContextMenu") None
           (place ++ [("onFinished", PHandler H_closeMenu)])
           [VElement (Host "div") None
              [("className",
                PVal (JsString "mx_NotificationsTab_RoomOverrideTile_ContextMenu"))]
              (menuItems lv)])
  else ret VUndefined.

(** [RoomOverrideTile].  [cm] is what [useContextMenu] returns at this
    render and [slot] the state of the [useState] hook ([None] at the
    first render); the result is the rendered tree and the state kept. *)
Definition RoomOverrideTile (cli : MatrixClient) (props : IRoomOverrideTileProps)
    (cm : ContextMenuHook) (slot : option (JsVal * JsVal))
    : M (VNode * (JsVal * JsVal)) :=
  let room := getRoom cli (roomId props) in
  initialNotify <- store_getRoomNotifyOverride (roomId props) ;;
  initialSound <- store_getRoomSoundOverride (roomId props) ;;
  let overrides := useState slot (initialNotify, initialSound) in
  let lv := resolveLevels props overrides in
  menu <- contextMenu cm lv ;;
  name <- room_name room ;;
  ret (VElement (Host "div") None
         [("className", PVal (JsString "mx_NotificationsTab_RoomOverrideTile"))]
         [VElement (Component "RoomAvatar") None
            [("room", PRoom room);
             ("width", PVal (JsNumber 32));
             ("height", PVal (JsNumber 32));
             ("aria-hidden", PVal (JsString "true"))]
            [];
          VElement (Host "span") None []
            [VValue (js_or (JsString name) (JsString (roomId props)))];
          VElement (Component "ContextMenuButton") None
            [("label", PVal (JsString (_t "TODO")));
             ("onClick", PHandler H_openMenu);
             ("isExpanded", PVal (JsBool (menuDisplayed cm)));
             ("inputRef", PRef Ref_button);
             ("kind", PVal (JsString "link"))]
            [VText (mapNotificationLevelToString (notifyLevel lv))];
          menu],
       overrides).

(** The overrides a render works with: the state kept by [useState], or
    at the first render what the store answers. *)
Definition overridesAt (props : IRoomOverrideTileProps)
    (slot : option (JsVal * JsVal)) (w : World) : JsVal * JsVal :=
  useState slot (getRoomNotifyOverride (store w) (roomId props),
                 getRoomSoundOverride (store w) (roomId props)).

(** The world a render of a tile leaves: the two queries of the
    [useState] argument are made, at every render. *)
Definition afterTile (props : IRoomOverrideTileProps) (w : World) : World :=
  logCall (Call_getRoomSoundOverride (roomId props))
          (logCall (Call_getRoomNotifyOverride (roomId props)) w).

(** A render cannot fault on the button reference: the menu is closed, or
    the reference is attached. *)
Definition buttonReady (cm : ContextMenuHook) : Prop :=
  menuDisplayed cm = true -> button_current cm <> None.

(** What a run of a render shows: the tree, or the fault. *)
Definition rendered {S} (run : Result (VNode * S) * World) : Result VNode :=
  match fst run with
  | Ok (out, _) => Ok out
  | Throw e => Throw e
  end.

(** How many times the store has been asked for the list of rooms. *)
Definition countFetches (w : World) : nat :=
  List.length (filter is_getOverridenRooms (storeCalls w)).

(** [onResetAllRoomsClick] *)
Definition onResetAllRoomsClick : M unit :=
  Modal_createTrackedDialog
    {| analyticsAction := "Notifications";
       analyticsInfo := "Reset all room overrides dialog";
       Element := "QuestionDialog";
       title := _t "Resetting all rooms";
       description := _t "Are you sure you want to reset all rooms?";
       button := _t "Yes";
       cancelButton := _t "No";
       onFinished := CB_resetAllRooms_onFinished |}.

(** The dialog calls its [onFinished] with the user's answer.  The body
    of the one callback is [if (yes) { /* TODO */ }]. *)
Definition runCallback (cb : Callback) (yes : bool) : M unit :=
  match cb with
  | CB_resetAllRooms_onFinished => if yes then ret tt else ret tt
  end.

(** A click runs the handler the element carries. *)
Definition dispatch (h : Handler) (cm : ContextMenuHook) : M ContextMenuHook :=
  match h with
  | H_openMenu => ret (openMenu cm)
  | H_closeMenu => ret (closeMenu cm)
  | H_onResetAllRoomsClick => onResetAllRoomsClick ;;; ret cm
  end.

(** The two descriptions of the section. *)
Definition warningDescription : VNode :=
  VElement (Host "div") None
    [("className", PVal (JsString "mx_SettingsTab_errorText"))]
    [VText (_t "Account notifications are set to “Never” and changes below will not apply.")].

Definition ordinaryDescription : VNode :=
  VElement (Host "div") None
    [("className", PVal (JsString "mx_SettingsTab_subsectionText"))]
    [VText (_t "Rooms listed below use custom notification settings")].

(** [<RoomOverrideTile key={roomId} ... />], not yet rendered. *)
Definition tileElement (props : IProps) (roomId : string) : VNode :=
  VElement (Component "RoomOverrideTile") (Some roomId)
    [("notifyMeWith", PVal (notifyMeWith props));
     ("playSoundFor", PVal (playSoundFor props));
     ("roomId", PVal (JsString roomId))]
    [].

(** Lines 163 to 191 of [RoomOverridesSection]: what is returned for the
    list of rooms the reference holds ([None] for [null]). *)
Definition RoomOverridesSection_body (props : IProps) (rooms : list string)
    : option VNode :=
  if Nat.ltb (List.length rooms) 1 then None
  else
    let description :=
      if strict_eq (notifyMeWith props) (NotificationSetting_value Never)
      then warningDescription else ordinaryDescription in
    let tiles := List.map (tileElement props) rooms in
    Some (VElement (Component "SettingsSection") None
            [("title", PVal (JsString (_t "Room notifications")))]
            [description;
             VArray tiles;
             VElement (Component "AccessibleButton") None
               [("kind", PVal (JsString "link"));
                ("onClick", PHandler H_onResetAllRoomsClick)]
               [VText (_t "Reset all rooms")]]).

(** [RoomOverridesSection].  [slot] is the state of the [useRef] hook
    ([None] at the first render); the result is what the component
    returns and the list the reference holds.  The argument of [useRef]
    is an ordinary call expression: it is evaluated before [useRef] is
    entered, at every render. *)
Definition RoomOverridesSection (props : IProps) (slot : option (list string))
    : M (option VNode * list string) :=
  fetched <- store_getOverridenRooms ;;
  let rooms := useRef_current slot fetched in
  ret (RoomOverridesSection_body props rooms, rooms).

(** The life of one mounted section: a render per element of [stores],
    each after the store has been put in that state from outside.  The
    first render has an empty [useRef] slot; every later one gets the slot
    the previous render left. *)
Fixpoint renderEach (props : IProps) (slot : option (list string))
    (stores : list Store) : M (list (option VNode)) :=
  match stores with
  | [] => ret []
  | s :: later =>
      fun w =>
        (out <- RoomOverridesSection props slot ;;
         outs <- renderEach props (Some (snd out)) later ;;
         ret (fst out :: outs)) (replaceStore s w)
  end.

End WithImports.

End RoomOverrides.
Export RoomOverrides.

(* ===================================================================== *)
(** ** Reading a rendered tree, and repeated clicks *)
(* ===================================================================== *)

Module Observe.

(** Whether a menu item is rendered with [aria-selected={true}]. *)
Definition isSelected (item : VNode) : bool :=
  match prop_of "aria-selected" item with
  | Some (PVal (JsBool b)) => b
  | _ => false
  end.

(** The [key] an element was given. *)
Definition key_of (n : VNode) : option string :=
  match n with
  | VElement _ k _ _ => k
  | _ => None
  end.

(** The text a menu item or a button shows first. *)
Definition label_of (n : VNode) : option VNode := nth_error (children_of n) 0.

Section WithImports.
Context {X : Imports}.
Local Open Scope render_scope.

(** [n] clicks on "Reset all rooms", one after the other. *)
Fixpoint clickResetAll (n : nat) : M unit :=
  match n with
  | O => ret tt
  | S k => onResetAllRoomsClick ;;; clickResetAll k
  end.

End WithImports.

End Observe.
Export Observe.

(* ===================================================================== *)
(** ** A concrete environment *)
(* ===================================================================== *)

(** One instance of [Imports], to run the component on: string-valued
    levels, a rounding that turns the direct-message level into
    [MentionsKeywordsOnly], the identity translation, a store and a client
    kept as association lists. *)
Module Sample.

Definition values : EnumDecl := fun n =>
  match n with
  | AllMessages => JsString "all_messages"
  | DirectMessagesMentionsKeywords => JsString "dm_mentions_keywords"
  | MentionsKeywordsOnly => JsString "mentions_keywords"
  | Never => JsString "never"
  end.

Definition round (roomId : string) (level : JsVal) : JsVal :=
  if strict_eq level (values DirectMessagesMentionsKeywords)
  then values MentionsKeywordsOnly else level.

Definition SampleStore : Type := list (string * (JsVal * JsVal)).

Fixpoint lookup {A} (k : string) (l : list (string * A)) : option A :=
  match l with
  | [] => None
  | (k', a) :: rest => if String.eqb k' k then Some a else lookup k rest
  end.

Definition notifyOverride (s : SampleStore) (roomId : string) : JsVal :=
  match lookup roomId s with
  | Some (n, _) => n
  | None => JsUndefined
  end.

Definition soundOverride (s : SampleStore) (roomId : string) : JsVal :=
  match lookup roomId s with
  | Some (_, snd) => snd
  | None => JsUndefined
  end.

Definition imports : Imports := {|
  NotificationSetting_value := values;
  roundRoomNotificationSetting := round;
  _t := fun s => s;
  Store := SampleStore;
  getRoomNotifyOverride := notifyOverride;
  getRoomSoundOverride := soundOverride;
  getOverridenRooms := List.map fst;
  MatrixClient := list (string * Room);
  getRoom := fun cli roomId => lookup roomId cli
|}.

(** Two rooms with an override each; the client knows the first only. *)
Definition store0 : SampleStore :=
  [("!a:hs", (values Never, JsUndefined));
   ("!b:hs", (JsUndefined, values AllMessages))].

Definition cli0 : list (string * Room) :=
  [("!a:hs", {| Room_name := "Lobby" |})].

Definition world0 : @World imports :=
  {| store := store0 : @Store imports; storeCalls := [];
     innerWidth := 1280%float; dialogs := [] |}.

Definition props0 : @IProps :=
  {| notifyMeWith := values AllMessages;
     playSoundFor := values DirectMessagesMentionsKeywords |}.

Definition tileProps (roomId : string) : @IRoomOverrideTileProps :=
  {| tile_notifyMeWith := values AllMessages;
     tile_playSoundFor := values DirectMessagesMentionsKeywords;
     roomId := roomId |}.

Definition closed : ContextMenuHook :=
  {| menuDisplayed := false; button_current := None |}.

Definition opened : ContextMenuHook :=
  {| menuDisplayed := true;
     button_current := Some {| rect_right := 900%float; rect_top := 300%float |} |}.

End Sample.

(* ===================================================================== *)
(** ** Properties *)
(* ===================================================================== *)

(** *** Values and levels *)

Lemma strict_eq_true (a b : JsVal) : strict_eq a b = true -> a = b.
Proof.
  destruct a, b; simpl; try discriminate; intros H; try reflexivity.
  - apply Bool.eqb_prop in H. now subst.
  - apply Z.eqb_eq in H. now subst.
  - apply String.eqb_eq in H. now subst.
Qed.

Lemma truthy_not_nullish (v : JsVal) : truthy v = true -> is_nullish v = false.
Proof. destruct v; simpl; congruence. Qed.

(** [||] and [??] agree on every value that is nullish or truthy. *)
Lemma js_or_nullish_coalesce (a b : JsVal) :
  is_nullish a = true \/ truthy a = true ->
  js_or a b = nullish_coalesce a b.
Proof.
  unfold js_or, nullish_coalesce. intros [H | H].
  - rewrite H. now destruct a.
  - rewrite H, (truthy_not_nullish _ H). reflexivity.
Qed.

(** They part on the values that are falsy without being nullish: an
    override of [0] or of the empty string is dropped by [||] and kept by
    [??]. *)
Lemma js_or_drops_falsy_override (b : JsVal) :
  js_or (JsNumber 0) b = b /\ nullish_coalesce (JsNumber 0) b = JsNumber 0 /\
  js_or (JsString "") b = b /\ nullish_coalesce (JsString "") b = JsString "".
Proof. repeat split. Qed.

Lemma NotificationSetting_eqb_eq (a b : NotificationSetting) :
  NotificationSetting_eqb a b = true <-> a = b.
Proof. destruct a, b; simpl; split; congruence. Qed.

Lemma enum_distinct_refl (E : EnumDecl) (a : NotificationSetting) :
  enum_distinct E -> strict_eq (E a) (E a) = true.
Proof. intros H. rewrite H. now destruct a. Qed.

Lemma enum_distinct_neq (E : EnumDecl) (a b : NotificationSetting) :
  enum_distinct E -> a <> b -> E a <> E b.
Proof.
  intros H Hab Heq.
  assert (Ht : strict_eq (E a) (E b) = true)
    by (rewrite Heq; now apply enum_distinct_refl).
  rewrite H in Ht. now apply NotificationSetting_eqb_eq in Ht.
Qed.

Lemma override_value_or (E : EnumDecl) (v b : JsVal) :
  enum_truthy E -> override_value E v -> js_or v b = nullish_coalesce v b.
Proof.
  intros HE [Hn | [n ->]]; apply js_or_nullish_coalesce; auto.
Qed.

Lemma Sample_values_distinct : enum_distinct Sample.values.
Proof. intros a b. now destruct a, b. Qed.

Lemma Sample_values_truthy : enum_truthy Sample.values.
Proof. intros a. now destruct a. Qed.

Section Properties.
Context {X : Imports}.

Local Abbreviation level := NotificationSetting_value.

(** *** [mapNotificationLevelToString] *)

(** C9.  [mapNotificationLevelToString] answers one of three labels on
    every input whatever; [AllMessages] gives "All Messages";
    [DirectMessagesMentionsKeywords] and [MentionsKeywordsOnly], two
    different levels, give the same "Mentions & Keywords", so the function
    is not injective; [Never] gives "None", and so does every value that
    is none of the three levels above, through the [default] branch. *)
Theorem mapNotificationLevelToString_total_not_injective :
  enum_distinct level ->
  (forall v,
     In (mapNotificationLevelToString v)
        [_t "All Messages"; _t "Mentions & Keywords"; _t "None"]) /\
  mapNotificationLevelToString (level AllMessages) = _t "All Messages" /\
  (level DirectMessagesMentionsKeywords <> level MentionsKeywordsOnly /\
   mapNotificationLevelToString (level DirectMessagesMentionsKeywords)
     = _t "Mentions & Keywords" /\
   mapNotificationLevelToString (level MentionsKeywordsOnly)
     = _t "Mentions & Keywords") /\
  mapNotificationLevelToString (level Never) = _t "None" /\
  (forall v,
     strict_eq v (level AllMessages) = false ->
     strict_eq v (level DirectMessagesMentionsKeywords) = false ->
     strict_eq v (level MentionsKeywordsOnly) = false ->
     mapNotificationLevelToString v = _t "None").
Proof.
  intros HE. unfold mapNotificationLevelToString.
  split; [| split; [| split; [| split]]].
  - intros v.
    destruct (strict_eq v (level AllMessages)); [simpl; auto |].
    destruct (strict_eq v (level DirectMessagesMentionsKeywords)
              || strict_eq v (level MentionsKeywordsOnly)); [simpl; auto |].
    destruct (strict_eq v (level Never)); simpl; auto.
  - now rewrite (enum_distinct_refl AllMessages HE).
  - split; [apply (enum_distinct_neq HE); discriminate |].
    rewrite !HE. simpl. split; reflexivity.
  - rewrite !HE. reflexivity.
  - intros v -> -> ->. simpl. now destruct (strict_eq v (level Never)).
Qed.

(** *** [RoomOverrideTile] *)

(** With the room known to the client and the button ready, the tile
    renders; its menu button shows the label of [notifyLevel], and its
    menu items are the three of [menuItems] when the menu is open. *)
Lemma RoomOverrideTile_returns cli props cm slot w room :
  getRoom cli (roomId props) = Some room ->
  buttonReady cm ->
  let lv := resolveLevels props (overridesAt props slot w) in
  exists out,
    RoomOverrideTile cli props cm slot w
      = (Ok (out, overridesAt props slot w), afterTile props w) /\
    flat_map children_of (elementsOfType (Component "ContextMenuButton") out)
      = [VText (mapNotificationLevelToString (notifyLevel lv))] /\
    elementsOfType (Component "MenuItem") out
      = (if menuDisplayed cm then menuItems lv else []).
Proof.
  intros Hroom Hready lv.
  unfold RoomOverrideTile, bind, store_getRoomNotifyOverride,
    store_getRoomSoundOverride, contextMenu, inPlaceOf, window_innerWidth.
  rewrite Hroom. fold (afterTile props w).
  destruct cm as [[|] [rect|]]; cbn.
  - eexists; split; [reflexivity |].
    subst lv. unfold overridesAt, menuItems, menuItem.
    split; cbn;
      repeat match goal with
             | |- context [if ?c then defaultTag else VUndefined] => destruct c
             end; reflexivity.
  - exfalso. now apply Hready.
  - eexists; split; [reflexivity |]. split; reflexivity.
  - eexists; split; [reflexivity |]. split; reflexivity.
Qed.

(** After the store's room-override-changed event, a render works with
    the overrides the event carried, not with what the store answers. *)
Lemma overridesAt_after_event props payload w :
  overridesAt props (setOverrides payload) w = payload.
Proof. reflexivity. Qed.

(** C1.  The level a tile resolves is [override ?? rounded(default)]: the
    room's notify override when the store has one set, the rounded
    [notifyMeWith] otherwise, and this is the level whose label the menu
    button shows; the sound level is resolved the same way from the sound
    override and the rounded [playSoundFor].  (The source writes [||]; the
    two agree because an override is unset or a level, and no level is a
    falsy value.) *)
Theorem RoomOverrideTile_effective_level cli props cm slot w room :
  enum_truthy level ->
  getRoom cli (roomId props) = Some room ->
  buttonReady cm ->
  let overrides := overridesAt props slot w in
  override_value level (fst overrides) ->
  override_value level (snd overrides) ->
  let effectiveNotify :=
    nullish_coalesce (fst overrides)
      (roundRoomNotificationSetting (roomId props) (tile_notifyMeWith props)) in
  let effectiveSound :=
    nullish_coalesce (snd overrides)
      (roundRoomNotificationSetting (roomId props) (tile_playSoundFor props)) in
  notifyLevel (resolveLevels props overrides) = effectiveNotify /\
  soundLevel (resolveLevels props overrides) = effectiveSound /\
  exists out w',
    RoomOverrideTile cli props cm slot w = (Ok (out, overrides), w') /\
    flat_map children_of (elementsOfType (Component "ContextMenuButton") out)
      = [VText (mapNotificationLevelToString effectiveNotify)].
Proof.
  intros HE Hroom Hready overrides Hn Hs effectiveNotify effectiveSound.
  assert (Hnl : notifyLevel (resolveLevels props overrides) = effectiveNotify).
  { subst effectiveNotify. destruct overrides as [n s]. cbn in *.
    now apply override_value_or with (E := level). }
  assert (Hsl : soundLevel (resolveLevels props overrides) = effectiveSound).
  { subst effectiveSound. destruct overrides as [n s]. cbn in *.
    now apply override_value_or with (E := level). }
  split; [exact Hnl |]. split; [exact Hsl |].
  destruct (RoomOverrideTile_returns cli props slot w Hroom Hready)
    as (out & Hrun & Hbutton & _).
  exists out, (afterTile props w). split; [exact Hrun |].
  rewrite Hbutton. fold overrides. now rewrite Hnl.
Qed.

Lemma isDefaultTag_defaultTag : isDefaultTag defaultTag = true.
Proof. unfold isDefaultTag, defaultTag, VText. cbn. now rewrite String.eqb_refl. Qed.

(** Whatever the rounded default is, an item carries the tag exactly when
    the rounded default [===] the item's level. *)
Lemma menuItem_hasDefaultTag className l lv :
  hasDefaultTag (menuItem className l lv)
    = strict_eq (roundedNotifyMeWith lv) (level l).
Proof.
  unfold hasDefaultTag, menuItem. cbn [children_of existsb].
  destruct (strict_eq (roundedNotifyMeWith lv) (level l)).
  - now rewrite isDefaultTag_defaultTag.
  - reflexivity.
Qed.

Lemma menuItems_hasDefaultTag lv :
  map hasDefaultTag (menuItems lv)
    = map (fun l => strict_eq (roundedNotifyMeWith lv) (level l)) menuLevels.
Proof. unfold menuItems, menuLevels. cbn [map]. now rewrite !menuItem_hasDefaultTag. Qed.

(** Were the rounding to answer a level that is not on the menu, such as
    [DirectMessagesMentionsKeywords], no item would carry the tag. *)
Lemma menuItems_no_tag_off_menu lv :
  enum_distinct level ->
  roundedNotifyMeWith lv = level DirectMessagesMentionsKeywords ->
  filter hasDefaultTag (menuItems lv) = [].
Proof.
  intros HE Hr. unfold menuItems. cbn [filter].
  rewrite !menuItem_hasDefaultTag, Hr, !HE. reflexivity.
Qed.

(** C2.  With the menu open, the three items of the menu are those of
    [AllMessages], [MentionsKeywordsOnly] and [Never], in this order; when
    the rounded default is the level [r], the "(default)" tag is on the
    item of each level [l] exactly when [l] is [r], so on exactly one
    item.  The rounded default is one of the three levels of the menu:
    that is what rounding to a room's levels gives. *)
Theorem RoomOverrideTile_default_tag cli props rect slot w room r :
  enum_distinct level ->
  getRoom cli (roomId props) = Some room ->
  In r menuLevels ->
  roundRoomNotificationSetting (roomId props) (tile_notifyMeWith props) = level r ->
  exists out st w',
    RoomOverrideTile cli props
      {| menuDisplayed := true; button_current := Some rect |} slot w
      = (Ok (out, st), w') /\
    let items := elementsOfType (Component "MenuItem") out in
    items = menuItems (resolveLevels props st) /\
    map hasDefaultTag items = map (fun l => NotificationSetting_eqb l r) menuLevels /\
    List.length (filter hasDefaultTag items) = 1.
Proof.
  intros HE Hroom Hr Hround.
  destruct (@RoomOverrideTile_returns cli props
              {| menuDisplayed := true; button_current := Some rect |} slot w room
              Hroom) as (out & Hrun & _ & Hitems).
  { intros _. discriminate. }
  exists out, (overridesAt props slot w), (afterTile props w).
  split; [exact Hrun |]. cbn in Hitems. cbn zeta. rewrite Hitems.
  split; [reflexivity |].
  assert (Hrounded :
    roundedNotifyMeWith (resolveLevels props (overridesAt props slot w)) = level r).
  { destruct (overridesAt props slot w). exact Hround. }
  unfold menuItems, menuLevels. cbn [map filter].
  rewrite !menuItem_hasDefaultTag, Hrounded, !HE.
  destruct Hr as [<- | [<- | [<- | []]]]; split; reflexivity.
Qed.

(** C7.  With the menu open, each of the three items carries [closeMenu]
    as its [onClick]; running it closes the menu, keeps the button
    reference, and leaves the world as it was: the store, and with it
    every notify and sound override, is untouched. *)
Theorem RoomOverrideTile_selection_only_closes cli props rect slot w room :
  getRoom cli (roomId props) = Some room ->
  exists out st w',
    RoomOverrideTile cli props
      {| menuDisplayed := true; button_current := Some rect |} slot w
      = (Ok (out, st), w') /\
    let items := elementsOfType (Component "MenuItem") out in
    List.length items = 3 /\
    forall item, In item items ->
      exists h, prop_of "onClick" item = Some (PHandler h) /\
        forall cm w0, exists cm',
          dispatch h cm w0 = (Ok cm', w0) /\
          menuDisplayed cm' = false /\
          button_current cm' = button_current cm.
Proof.
  intros Hroom.
  destruct (@RoomOverrideTile_returns cli props
              {| menuDisplayed := true; button_current := Some rect |} slot w room
              Hroom) as (out & Hrun & _ & Hitems).
  { intros _. discriminate. }
  exists out, (overridesAt props slot w), (afterTile props w).
  split; [exact Hrun |]. cbn in Hitems. cbn zeta. rewrite Hitems.
  split; [reflexivity |].
  intros item Hin. exists H_closeMenu.
  split.
  - unfold menuItems in Hin. cbn in Hin.
    destruct Hin as [<- | [<- | [<- | []]]]; reflexivity.
  - intros cm w0. exists (closeMenu cm). repeat split.
Qed.

(** C8.  When the client has no room for the id, the render of the tile
    throws; with the button ready (as at the first render, the menu being
    closed) what throws is the read of [name] on the missing room.  The
    component catches nothing: the throw is the result of the render. *)
Theorem RoomOverrideTile_missing_room_faults cli props cm slot w :
  getRoom cli (roomId props) = None ->
  exists e,
    RoomOverrideTile cli props cm slot w = (Throw e, afterTile props w) /\
    (buttonReady cm -> e = TypeError_null_property "room" "name").
Proof.
  intros Hroom.
  unfold RoomOverrideTile, bind, store_getRoomNotifyOverride,
    store_getRoomSoundOverride, contextMenu, inPlaceOf, window_innerWidth.
  rewrite Hroom. fold (afterTile props w).
  destruct cm as [[|] [rect|]]; cbn; eexists; split; try reflexivity.
  intros Hready. exfalso. now apply Hready.
Qed.

(** C10.  Two renders of a tile that differ in [playSoundFor], in the
    sound override and in anything else of the store but the room's notify
    override give the same output, or the same fault. *)
Theorem RoomOverrideTile_ignores_sound cli room notify sound1 sound2 cm
    slot1 slot2 w1 w2 :
  let props1 := {| tile_notifyMeWith := notify; tile_playSoundFor := sound1;
                   roomId := room |} in
  let props2 := {| tile_notifyMeWith := notify; tile_playSoundFor := sound2;
                   roomId := room |} in
  fst (overridesAt props1 slot1 w1) = fst (overridesAt props2 slot2 w2) ->
  innerWidth w1 = innerWidth w2 ->
  rendered (RoomOverrideTile cli props1 cm slot1 w1)
    = rendered (RoomOverrideTile cli props2 cm slot2 w2).
Proof.
  intros props1 props2 Hnotify Hwidth.
  unfold rendered, RoomOverrideTile, bind, store_getRoomNotifyOverride,
    store_getRoomSoundOverride, contextMenu, inPlaceOf, window_innerWidth.
  unfold overridesAt in Hnotify. subst props1 props2. cbn [roomId] in *.
  destruct (useState slot1 _) as [n1 s1], (useState slot2 _) as [n2 s2].
  cbn in Hnotify. subst n2.
  destruct cm as [[|] [rect|]], (getRoom cli room); cbn;
    rewrite ?Hwidth; reflexivity.
Qed.

(** *** [RoomOverridesSection] *)

Lemma RoomOverridesSection_run props slot w :
  RoomOverridesSection props slot w
    = (Ok (RoomOverridesSection_body props
             (useRef_current slot (getOverridenRooms (store w))),
           useRef_current slot (getOverridenRooms (store w))),
       logCall Call_getOverridenRooms w).
Proof. reflexivity. Qed.

Lemma tiles_elementsOfType props rooms :
  flat_map (elementsOfType (Component "RoomOverrideTile"))
           (map (tileElement props) rooms)
    = map (tileElement props) rooms.
Proof.
  induction rooms as [| roomId rooms IH]; [reflexivity |].
  cbn [map flat_map]. rewrite IH. reflexivity.
Qed.

Lemma body_null_iff props rooms :
  RoomOverridesSection_body props rooms = None <-> rooms = [].
Proof.
  unfold RoomOverridesSection_body. destruct rooms; cbn; split;
    (reflexivity || discriminate).
Qed.

Lemma body_tiles props rooms tree :
  RoomOverridesSection_body props rooms = Some tree ->
  elementsOfType (Component "RoomOverrideTile") tree = map (tileElement props) rooms /\
  exists description,
    children_of tree
      = [description; VArray (map (tileElement props) rooms);
         VElement (Component "AccessibleButton") None
           [("kind", PVal (JsString "link"));
            ("onClick", PHandler H_onResetAllRoomsClick)]
           [VText (_t "Reset all rooms")]] /\
    description = (if strict_eq (notifyMeWith props) (level Never)
                   then warningDescription else ordinaryDescription).
Proof.
  unfold RoomOverridesSection_body.
  destruct (Nat.ltb (List.length rooms) 1); [discriminate |].
  intros [= <-]. split.
  - cbn [elementsOfType ElementType_eqb flat_map]. rewrite tiles_elementsOfType.
    destruct (strict_eq (notifyMeWith props) (level Never)); cbn;
      now rewrite app_nil_r.
  - eexists. split; reflexivity.
Qed.

(** Every render of the section queries the store for the list. *)
Lemma renderEach_fetches props stores : forall slot w,
  countFetches (snd (renderEach props slot stores w))
    = countFetches w + List.length stores.
Proof.
  induction stores as [| s later IH]; intros slot w.
  - cbn. lia.
  - cbn [renderEach]. unfold bind at 1. rewrite RoomOverridesSection_run.
    cbn [fst snd]. unfold bind at 1.
    specialize (IH (Some (useRef_current slot (getOverridenRooms (store (replaceStore s w)))))
                   (logCall Call_getOverridenRooms (replaceStore s w))).
    destruct (renderEach props _ later _) as [[outs | e] w'] eqn:Hrest;
      cbn [snd] in *; unfold ret; cbn [snd]; rewrite IH;
      unfold countFetches, logCall, replaceStore; cbn [storeCalls];
      rewrite filter_app, length_app; cbn; lia.
Qed.

(** The list shown is the one of the first render, however the store
    changes afterwards: every render of a mounted section returns what
    the first one returned. *)
Lemma renderEach_frozen props s0 later w :
  fst (renderEach props None (s0 :: later) w)
    = Ok (repeat (RoomOverridesSection_body props (getOverridenRooms s0))
                 (S (List.length later))).
Proof.
  assert (Hkept : forall stores rooms w0,
    fst (renderEach props (Some rooms) stores w0)
      = Ok (repeat (RoomOverridesSection_body props rooms) (List.length stores))).
  { induction stores as [| s stores IH]; intros rooms w0; [reflexivity |].
    cbn [renderEach]. unfold bind at 1. rewrite RoomOverridesSection_run.
    cbn [fst snd useRef_current]. unfold bind at 1.
    specialize (IH rooms (logCall Call_getOverridenRooms (replaceStore s w0))).
    destruct (renderEach props (Some rooms) stores _) as [[outs | e] w'];
      cbn [fst] in IH; [| discriminate].
    injection IH as ->. reflexivity. }
  cbn [renderEach]. unfold bind at 1. rewrite RoomOverridesSection_run.
  cbn [fst snd useRef_current]. unfold bind at 1.
  specialize (Hkept later (getOverridenRooms (store (replaceStore s0 w)))
                    (logCall Call_getOverridenRooms (replaceStore s0 w))).
  destruct (renderEach props _ later _) as [[outs | e] w'];
    cbn [fst] in Hkept; [| discriminate].
  injection Hkept as ->. reflexivity.
Qed.

(** C3.  A section returns [null] exactly when the list of overridden
    rooms the store answered at its first render (the mount) is empty, and
    otherwise a tree with one [RoomOverrideTile] per room of that list, in
    order, keyed by the room and handed its id.  This holds at the mount,
    where the list is what the store answers, at any later render, where
    it is the list kept since and kept again whatever the store answers
    now, and so at every render of a mounted section through any sequence
    of states of the store. *)
Theorem RoomOverridesSection_null_iff_no_rooms props s0 later w :
  let mounted := getOverridenRooms s0 in
  let one_tile_per_room (rooms : list string) (out : option VNode) :=
    (out = None <-> rooms = []) /\
    (rooms <> [] ->
     exists tree, out = Some tree /\
       let tiles := elementsOfType (Component "RoomOverrideTile") tree in
       map key_of tiles = map Some rooms /\
       map (prop_of "roomId") tiles
         = map (fun id => Some (PVal (JsString id))) rooms) in
  (exists out w',
     RoomOverridesSection props None (replaceStore s0 w) = (Ok (out, mounted), w') /\
     one_tile_per_room mounted out) /\
  (forall props' kept w1, exists out w',
     RoomOverridesSection props' (Some kept) w1 = (Ok (out, kept), w') /\
     one_tile_per_room kept out) /\
  (exists outs,
     fst (renderEach props None (s0 :: later) w) = Ok outs /\
     List.length outs = S (List.length later) /\
     Forall (one_tile_per_room mounted) outs).
Proof.
  intros mounted one_tile_per_room.
  assert (Hbody : forall props' rooms,
            one_tile_per_room rooms (RoomOverridesSection_body props' rooms)).
  { intros props' rooms. split; [apply body_null_iff |].
    intros Hne.
    destruct (RoomOverridesSection_body props' rooms) as [tree |] eqn:Hb.
    - exists tree. split; [reflexivity |].
      apply body_tiles in Hb. destruct Hb as [Htiles _].
      cbv zeta. rewrite Htiles, !map_map. split; reflexivity.
    - now apply body_null_iff in Hb. }
  split; [| split].
  - do 2 eexists. split; [apply RoomOverridesSection_run |]. apply Hbody.
  - intros props' kept w1. do 2 eexists.
    split; [apply RoomOverridesSection_run |]. apply Hbody.
  - eexists. split; [apply renderEach_frozen |].
    split; [apply repeat_length |].
    apply Forall_forall. intros out Hin. apply repeat_spec in Hin. subst out.
    apply Hbody.
Qed.

(** C4.  A section that renders (the list it holds, the store's answer
    at the first render and the kept list afterwards, is not empty) has
    as first child a [div]: of class [mx_SettingsTab_errorText], with the
    text "Account notifications are set to “Never” and changes below will
    not apply.", when [notifyMeWith === NotificationSetting.Never]; of
    class [mx_SettingsTab_subsectionText], with the text "Rooms listed
    below use custom notification settings", when not.  The warning is
    among the children exactly in the first case and the ordinary
    description exactly in the second. *)
Theorem RoomOverridesSection_warning_iff_Never props slot w :
  let held := match slot with
              | Some kept => kept
              | None => getOverridenRooms (store w)
              end in
  let warning :=
    VElement (Host "div") None
      [("className", PVal (JsString "mx_SettingsTab_errorText"))]
      [VValue (JsString
         (_t "Account notifications are set to “Never” and changes below will not apply."))] in
  let ordinary :=
    VElement (Host "div") None
      [("className", PVal (JsString "mx_SettingsTab_subsectionText"))]
      [VValue (JsString (_t "Rooms listed below use custom notification settings"))] in
  held <> [] ->
  exists tree w',
    RoomOverridesSection props slot w = (Ok (Some tree, held), w') /\
    nth_error (children_of tree) 0
      = Some (if strict_eq (notifyMeWith props) (level Never)
              then warning else ordinary) /\
    (In warning (children_of tree)
       <-> strict_eq (notifyMeWith props) (level Never) = true) /\
    (In ordinary (children_of tree)
       <-> strict_eq (notifyMeWith props) (level Never) = false).
Proof.
  intros held warning ordinary Hrooms. rewrite RoomOverridesSection_run.
  assert (Hheld : useRef_current slot (getOverridenRooms (store w)) = held)
    by (destruct slot; reflexivity).
  rewrite Hheld.
  destruct (RoomOverridesSection_body props held) as [tree |] eqn:Hbody.
  2: { now apply body_null_iff in Hbody. }
  exists tree, (logCall Call_getOverridenRooms w).
  split; [reflexivity |].
  apply body_tiles in Hbody. destruct Hbody as (_ & description & -> & ->).
  subst warning ordinary.
  destruct (strict_eq (notifyMeWith props) (level Never)); cbn;
    (split; [reflexivity |]); split; split;
    intros H; try reflexivity; try discriminate; auto;
    repeat (destruct H as [H | H]; try discriminate H); try contradiction.
Qed.

(** The section's "Reset all rooms" button carries [onResetAllRoomsClick]. *)
Lemma RoomOverridesSection_reset_button props rooms tree :
  RoomOverridesSection_body props rooms = Some tree ->
  map (prop_of "onClick") (elementsOfType (Component "AccessibleButton") tree)
    = [Some (PHandler H_onResetAllRoomsClick)].
Proof.
  intros Hbody. unfold RoomOverridesSection_body in Hbody.
  destruct (Nat.ltb (List.length rooms) 1); [discriminate |].
  injection Hbody as <-.
  cbn [elementsOfType ElementType_eqb flat_map].
  assert (Htiles : flat_map (elementsOfType (Component "AccessibleButton"))
                     (map (tileElement props) rooms) = []).
  { clear. induction rooms as [| r rooms IH]; [reflexivity | exact IH]. }
  rewrite Htiles.
  destruct (strict_eq (notifyMeWith props) (level Never)); reflexivity.
Qed.

(** *** [onResetAllRoomsClick] *)

(** C6.  A click on "Reset all rooms" opens one [QuestionDialog] and
    changes nothing else of the world; whatever the user answers, the
    dialog's [onFinished] leaves the world as it is.  The store, and with
    it every override, is the same before the click, after it, and after
    the answer. *)
Theorem onResetAllRoomsClick_never_resets cm w yes :
  exists d w1,
    dispatch H_onResetAllRoomsClick cm w = (Ok cm, w1) /\
    store w1 = store w /\
    storeCalls w1 = storeCalls w /\
    dialogs w1 = (dialogs w ++ [d])%list /\
    Element d = "QuestionDialog" /\
    runCallback (onFinished d) yes w1 = (Ok tt, w1).
Proof.
  eexists. eexists. split; [reflexivity |]. cbn.
  repeat split. now destruct yes.
Qed.

End Properties.

Lemma mapNotificationLevelToString_witness :
  enum_distinct Sample.values /\
  @mapNotificationLevelToString Sample.imports (JsString "dm_mentions_keywords")
    = @mapNotificationLevelToString Sample.imports (JsString "mentions_keywords").
Proof.
  split; [exact Sample_values_distinct |].
  pose proof (@mapNotificationLevelToString_total_not_injective Sample.imports
                Sample_values_distinct) as (_ & _ & (_ & Hd & Hm) & _).
  simpl in Hd, Hm. rewrite Hd, Hm. reflexivity.
Defined.

(** *** The theorems at the sample environment *)

Lemma RoomOverrideTile_effective_level_witness :
  let overrides := (Sample.values Never, JsUndefined) in
  let lv := @resolveLevels Sample.imports (Sample.tileProps "!a:hs") overrides in
  override_value Sample.values (fst overrides) /\
  override_value Sample.values (snd overrides) /\
  notifyLevel lv = Sample.values Never /\
  soundLevel lv = Sample.values MentionsKeywordsOnly.
Proof.
  assert (Hn : override_value Sample.values (Sample.values Never))
    by (right; exists Never; reflexivity).
  assert (Hs : override_value Sample.values JsUndefined)
    by (left; reflexivity).
  assert (Hready : buttonReady Sample.closed)
    by (intros H; discriminate H).
  destruct (@RoomOverrideTile_effective_level Sample.imports Sample.cli0
              (Sample.tileProps "!a:hs") Sample.closed None Sample.world0
              {| Room_name := "Lobby" |}
              Sample_values_truthy eq_refl Hready Hn Hs) as (H1 & H2 & _).
  cbv zeta. split; [exact Hn |]. split; [exact Hs |].
  split; [exact H1 | exact H2].
Defined.

Lemma RoomOverrideTile_default_tag_witness :
  In AllMessages menuLevels /\
  exists out st w',
    @RoomOverrideTile Sample.imports Sample.cli0 (Sample.tileProps "!a:hs")
      Sample.opened None Sample.world0 = (Ok (out, st), w') /\
    map (@hasDefaultTag Sample.imports) (elementsOfType (Component "MenuItem") out)
      = [true; false; false].
Proof.
  assert (Hin : In AllMessages menuLevels) by (left; reflexivity).
  split; [exact Hin |].
  destruct (@RoomOverrideTile_default_tag Sample.imports Sample.cli0
              (Sample.tileProps "!a:hs") {| rect_right := 900%float; rect_top := 300%float |}
              None Sample.world0 {| Room_name := "Lobby" |} AllMessages
              Sample_values_distinct eq_refl Hin eq_refl)
    as (out & st & w' & Hrun & _ & Htags & _).
  exists out, st, w'. split; [exact Hrun | exact Htags].
Defined.

Lemma RoomOverrideTile_selection_only_closes_witness :
  exists out st w',
    @RoomOverrideTile Sample.imports Sample.cli0 (Sample.tileProps "!a:hs")
      Sample.opened None Sample.world0 = (Ok (out, st), w') /\
    List.length (elementsOfType (Component "MenuItem") out) = 3.
Proof.
  destruct (@RoomOverrideTile_selection_only_closes Sample.imports Sample.cli0
              (Sample.tileProps "!a:hs") {| rect_right := 900%float; rect_top := 300%float |}
              None Sample.world0 {| Room_name := "Lobby" |} eq_refl)
    as (out & st & w' & Hrun & Hlen & _).
  exists out, st, w'. split; [exact Hrun | exact Hlen].
Defined.

Lemma RoomOverrideTile_missing_room_faults_witness :
  @getRoom Sample.imports Sample.cli0 "!b:hs" = None /\
  fst (@RoomOverrideTile Sample.imports Sample.cli0 (Sample.tileProps "!b:hs")
         Sample.closed None Sample.world0)
    = Throw (TypeError_null_property "room" "name").
Proof.
  split; [reflexivity |].
  destruct (@RoomOverrideTile_missing_room_faults Sample.imports Sample.cli0
              (Sample.tileProps "!b:hs") Sample.closed None Sample.world0 eq_refl)
    as (e & Hrun & He).
  rewrite Hrun. cbn [fst]. f_equal. apply He. intros H. discriminate H.
Defined.

Lemma RoomOverrideTile_ignores_sound_witness :
  rendered (@RoomOverrideTile Sample.imports Sample.cli0
              {| tile_notifyMeWith := Sample.values AllMessages;
                 tile_playSoundFor := Sample.values Never;
                 roomId := "!a:hs" |}
              Sample.opened None Sample.world0)
  = rendered (@RoomOverrideTile Sample.imports Sample.cli0
              {| tile_notifyMeWith := Sample.values AllMessages;
                 tile_playSoundFor := Sample.values AllMessages;
                 roomId := "!a:hs" |}
              Sample.opened
              (Some (Sample.values Never, Sample.values MentionsKeywordsOnly))
              Sample.world0).
Proof.
  apply (@RoomOverrideTile_ignores_sound Sample.imports Sample.cli0 "!a:hs"
           (Sample.values AllMessages) (Sample.values Never)
           (Sample.values AllMessages) Sample.opened None
           (Some (Sample.values Never, Sample.values MentionsKeywordsOnly))
           Sample.world0 Sample.world0); reflexivity.
Defined.

Lemma RoomOverridesSection_warning_iff_Never_witness :
  exists tree st w',
    @RoomOverridesSection Sample.imports
      {| notifyMeWith := Sample.values Never;
         playSoundFor := Sample.values AllMessages |} None Sample.world0
      = (Ok (Some tree, st), w') /\
    nth_error (children_of tree) 0
      = Some (VElement (Host "div") None
                [("className", PVal (JsString "mx_SettingsTab_errorText"))]
                [VValue (JsString
                   "Account notifications are set to “Never” and changes below will not apply.")]).
Proof.
  destruct (@RoomOverridesSection_warning_iff_Never Sample.imports
              {| notifyMeWith := Sample.values Never;
                 playSoundFor := Sample.values AllMessages |} None Sample.world0)
    as (tree & w' & Hrun & Hfirst & _).
  { cbn. discriminate. }
  exists tree, ["!a:hs"; "!b:hs"], w'. split; [exact Hrun | exact Hfirst].
Defined.

(** C5.  The section is mounted with two overridden rooms in the store
    and rendered again after the store has been emptied.  Both renders
    return the same tree, with the two tiles of the first list; but the
    store has been asked for the list of rooms at each of the two renders,
    not once: the argument of [useRef] is evaluated at every render and
    its value dropped from the second on. *)
Theorem RoomOverridesSection_fetches_at_every_render :
  let run := @renderEach Sample.imports Sample.props0 None
               [Sample.store0; []] Sample.world0 in
  storeCalls (snd run) = [Call_getOverridenRooms; Call_getOverridenRooms] /\
  countFetches (snd run) = 2 /\
  fst run
    = Ok (repeat (@RoomOverridesSection_body Sample.imports Sample.props0
                    ["!a:hs"; "!b:hs"]) 2).
Proof. cbv zeta. repeat split. Qed.

(* ===================================================================== *)
(** ** Further properties of the component *)
(* ===================================================================== *)

Section MoreProperties.
Context {X : Imports}.

Local Abbreviation level := NotificationSetting_value.

Local Ltac run_tile :=
  unfold RoomOverrideTile, bind, store_getRoomNotifyOverride,
    store_getRoomSoundOverride, contextMenu, inPlaceOf, window_innerWidth.

Local Ltac split_tags :=
  repeat match goal with
         | |- context [if ?c then defaultTag else VUndefined] => destruct c
         end.

(** *** The labels *)

(** X1.  Provided no level is a falsy value, every falsy value
    ([undefined], [null], [NaN], [0], the empty string, [false]) is
    labelled "None": a level that is not set reads as no notifications. *)
Theorem mapNotificationLevelToString_falsy_is_None v :
  enum_truthy level ->
  truthy v = false ->
  mapNotificationLevelToString v = _t "None".
Proof.
  intros HE Hv.
  assert (Hne : forall l, strict_eq v (level l) = false).
  { intros l. destruct (strict_eq v (level l)) eqn:Heq; [| reflexivity].
    apply strict_eq_true in Heq. rewrite Heq, HE in Hv. discriminate. }
  unfold mapNotificationLevelToString. rewrite !Hne. reflexivity.
Qed.

Lemma labels_of_levels :
  enum_distinct level ->
  mapNotificationLevelToString (level AllMessages) = _t "All Messages" /\
  mapNotificationLevelToString (level DirectMessagesMentionsKeywords)
    = _t "Mentions & Keywords" /\
  mapNotificationLevelToString (level MentionsKeywordsOnly)
    = _t "Mentions & Keywords" /\
  mapNotificationLevelToString (level Never) = _t "None".
Proof.
  intros HE. unfold mapNotificationLevelToString. rewrite !HE.
  repeat split.
Qed.

(** *** The tile's menu *)

Lemma menuItem_isSelected className l lv :
  isSelected (menuItem className l lv) = strict_eq (notifyLevel lv) (level l).
Proof. reflexivity. Qed.

Lemma open_ready rect :
  buttonReady {| menuDisplayed := true; button_current := Some rect |}.
Proof. intros _. discriminate. Qed.

(** X2.  With the menu open and the effective notify level being the
    level [r] of the menu, [aria-selected] is true on the item of each
    level [l] exactly when [l] is [r]: one item is selected, the one of
    the effective level. *)
Theorem RoomOverrideTile_selected_item cli props rect slot w room r :
  enum_distinct level ->
  getRoom cli (roomId props) = Some room ->
  In r menuLevels ->
  notifyLevel (resolveLevels props (overridesAt props slot w)) = level r ->
  exists out st w',
    RoomOverrideTile cli props
      {| menuDisplayed := true; button_current := Some rect |} slot w
      = (Ok (out, st), w') /\
    let items := elementsOfType (Component "MenuItem") out in
    map isSelected items = map (fun l => NotificationSetting_eqb l r) menuLevels /\
    List.length (filter isSelected items) = 1.
Proof.
  intros HE Hroom Hr Hlevel.
  destruct (RoomOverrideTile_returns cli props slot w Hroom (open_ready (rect:=rect)))
    as (out & Hrun & _ & Hitems).
  exists out, (overridesAt props slot w), (afterTile props w).
  split; [exact Hrun |]. cbn in Hitems. cbn zeta. rewrite Hitems.
  unfold menuItems, menuLevels. cbn [map filter].
  rewrite !menuItem_isSelected, Hlevel, !HE.
  destruct Hr as [<- | [<- | [<- | []]]]; split; reflexivity.
Qed.

(** X3.  While the room has no notify override ([undefined] or [null]),
    the selected item and the item tagged "(default)" are the same: every
    item of the open menu is selected exactly when it carries the tag. *)
Theorem RoomOverrideTile_no_override_selects_default cli props rect slot w room :
  getRoom cli (roomId props) = Some room ->
  is_nullish (fst (overridesAt props slot w)) = true ->
  exists out st w',
    RoomOverrideTile cli props
      {| menuDisplayed := true; button_current := Some rect |} slot w
      = (Ok (out, st), w') /\
    let items := elementsOfType (Component "MenuItem") out in
    List.length items = 3 /\
    map isSelected items = map hasDefaultTag items.
Proof.
  intros Hroom Hnull.
  destruct (RoomOverrideTile_returns cli props slot w Hroom (open_ready (rect:=rect)))
    as (out & Hrun & _ & Hitems).
  exists out, (overridesAt props slot w), (afterTile props w).
  split; [exact Hrun |]. cbn in Hitems. cbn zeta. rewrite Hitems.
  split; [reflexivity |].
  unfold menuItems. cbn [map].
  rewrite !menuItem_isSelected, !menuItem_hasDefaultTag.
  destruct (overridesAt props slot w) as [n s]. cbn in Hnull.
  assert (Hor : forall b, js_or n b = b) by (destruct n; try discriminate; reflexivity).
  cbn. rewrite !Hor. reflexivity.
Qed.

(** X4.  An override of [DirectMessagesMentionsKeywords] makes the menu
    button read "Mentions & Keywords", the label of the menu's second
    item, while no item of the menu is selected: the label merges the two
    mention levels, [aria-selected] compares with [MentionsKeywordsOnly]
    alone. *)
Theorem RoomOverrideTile_direct_messages_override cli props rect slot w room :
  enum_distinct level ->
  enum_truthy level ->
  getRoom cli (roomId props) = Some room ->
  fst (overridesAt props slot w) = level DirectMessagesMentionsKeywords ->
  exists out st w',
    RoomOverrideTile cli props
      {| menuDisplayed := true; button_current := Some rect |} slot w
      = (Ok (out, st), w') /\
    flat_map children_of (elementsOfType (Component "ContextMenuButton") out)
      = [VText (_t "Mentions & Keywords")] /\
    let items := elementsOfType (Component "MenuItem") out in
    map label_of items
      = [Some (VText (_t "All Messages")); Some (VText (_t "Mentions & Keywords"));
         Some (VText (_t "None"))] /\
    filter isSelected items = [].
Proof.
  intros HE HT Hroom Hov.
  destruct (RoomOverrideTile_returns cli props slot w Hroom (open_ready (rect:=rect)))
    as (out & Hrun & Hbutton & Hitems).
  exists out, (overridesAt props slot w), (afterTile props w).
  split; [exact Hrun |]. cbn in Hitems. cbn zeta. rewrite Hitems, Hbutton.
  assert (Hlevel : notifyLevel (resolveLevels props (overridesAt props slot w))
                   = level DirectMessagesMentionsKeywords).
  { destruct (overridesAt props slot w) as [n s]. cbn in Hov. subst n. cbn.
    unfold js_or. now rewrite HT. }
  destruct (labels_of_levels HE) as (Hall & Hdm & Hmk & Hnever).
  split; [now rewrite Hlevel, Hdm |].
  split.
  - unfold menuItems, menuItem, label_of. cbn [map children_of nth_error].
    now rewrite Hall, Hmk, Hnever.
  - unfold menuItems. cbn [filter].
    rewrite !menuItem_isSelected, Hlevel, !HE. reflexivity.
Qed.

(** *** What a render of the tile shows, and what it leaves behind *)

(** X5.  The tile names the room by [room.name], and by the room id when
    the name is the empty string. *)
Theorem RoomOverrideTile_shows_name_or_id cli props cm slot w room :
  getRoom cli (roomId props) = Some room ->
  buttonReady cm ->
  exists out st w',
    RoomOverrideTile cli props cm slot w = (Ok (out, st), w') /\
    nth_error (children_of out) 1
      = Some (VElement (Host "span") None []
                [VText (if String.eqb (Room_name room) ""
                        then roomId props else Room_name room)]).
Proof.
  intros Hroom Hready. run_tile. rewrite Hroom.
  assert (Hname : js_or (JsString (Room_name room)) (JsString (roomId props))
                  = JsString (if String.eqb (Room_name room) ""
                              then roomId props else Room_name room)).
  { unfold js_or. cbn. now destruct (String.eqb (Room_name room) ""). }
  destruct cm as [[|] [rect|]]; cbn; rewrite ?Hname.
  - do 3 eexists. split; reflexivity.
  - exfalso. now apply Hready.
  - do 3 eexists. split; reflexivity.
  - do 3 eexists. split; reflexivity.
Qed.

(** X6.  A render with the menu open and no button attached to the
    reference throws at [button.current.getBoundingClientRect()], whether
    the client knows the room or not. *)
Theorem RoomOverrideTile_open_menu_needs_button cli props cm slot w :
  menuDisplayed cm = true ->
  button_current cm = None ->
  RoomOverrideTile cli props cm slot w
    = (Throw (TypeError_null_property "button.current" "getBoundingClientRect"),
       afterTile props w).
Proof.
  destruct cm as [displayed current]. cbn. intros -> ->. reflexivity.
Qed.

(** X7.  With the menu closed the tile renders no [ContextMenu] and no
    [MenuItem]: the fourth child is [undefined].  The button reference and
    the window are not read, so the same tree comes out for any state of
    the reference and any window width. *)
Theorem RoomOverrideTile_closed_menu cli props current slot w room :
  getRoom cli (roomId props) = Some room ->
  exists out,
    rendered (RoomOverrideTile cli props
                {| menuDisplayed := false; button_current := current |} slot w)
      = Ok out /\
    elementsOfType (Component "ContextMenu") out = [] /\
    elementsOfType (Component "MenuItem") out = [] /\
    nth_error (children_of out) 3 = Some VUndefined /\
    forall current' w',
      store w' = store w ->
      rendered (RoomOverrideTile cli props
                  {| menuDisplayed := false; button_current := current' |} slot w')
        = Ok out.
Proof.
  intros Hroom. unfold rendered. run_tile. rewrite Hroom. cbn.
  eexists. split; [reflexivity |]. repeat split.
  intros current' w' ->. reflexivity.
Qed.

(** X8.  Once mounted, a tile renders from the overrides its state
    holds: what the store answers at a later render is dropped, so two
    worlds whose stores disagree on the room give the same output (or the
    same fault).  Only [setOverrides] brings a new override in. *)
Theorem RoomOverrideTile_rerender_ignores_store cli props cm overrides w1 w2 :
  innerWidth w1 = innerWidth w2 ->
  rendered (RoomOverrideTile cli props cm (Some overrides) w1)
    = rendered (RoomOverrideTile cli props cm (Some overrides) w2).
Proof.
  intros Hwidth. unfold rendered. run_tile.
  destruct cm as [[|] [rect|]], (getRoom cli (roomId props)); cbn;
    rewrite ?Hwidth; reflexivity.
Qed.

(** X9.  A render of the tile, returning or throwing, writes nothing:
    the store, the window width and the open dialogs are as before, and
    the trace has grown by the two override queries for the tile's room,
    asked at every render. *)
Theorem RoomOverrideTile_render_writes_nothing cli props cm slot w :
  let w' := snd (RoomOverrideTile cli props cm slot w) in
  store w' = store w /\
  innerWidth w' = innerWidth w /\
  dialogs w' = dialogs w /\
  storeCalls w'
    = (storeCalls w ++ [Call_getRoomNotifyOverride (roomId props);
                        Call_getRoomSoundOverride (roomId props)])%list.
Proof.
  cbv zeta. run_tile.
  destruct cm as [[|] [rect|]], (getRoom cli (roomId props)); cbn;
    rewrite <- app_assoc; repeat split.
Qed.

(** X10.  Opening the menu and choosing an item is a round trip.  From a
    tile whose menu is closed, the menu button carries [openMenu]; running
    it leaves the world alone and gives a state where [isExpanded] is true
    and three items are rendered; the handler of each item, run from that
    state, gives back the state before the click. *)
Theorem RoomOverrideTile_open_then_select cli props rect slot w room :
  getRoom cli (roomId props) = Some room ->
  let cm := {| menuDisplayed := false; button_current := Some rect |} in
  exists out0 out1 h,
    rendered (RoomOverrideTile cli props cm slot w) = Ok out0 /\
    map (prop_of "onClick") (elementsOfType (Component "ContextMenuButton") out0)
      = [Some (PHandler h)] /\
    (forall w0, exists cm1,
       dispatch h cm w0 = (Ok cm1, w0) /\
       rendered (RoomOverrideTile cli props cm1 slot w) = Ok out1 /\
       map (prop_of "isExpanded") (elementsOfType (Component "ContextMenuButton") out1)
         = [Some (PVal (JsBool true))] /\
       List.length (elementsOfType (Component "MenuItem") out1) = 3 /\
       forall item, In item (elementsOfType (Component "MenuItem") out1) ->
         exists h', prop_of "onClick" item = Some (PHandler h') /\
           forall w2, dispatch h' cm1 w2 = (Ok cm, w2)).
Proof.
  intros Hroom cm.
  destruct (RoomOverrideTile_returns cli props slot w Hroom
              (open_ready (rect:=rect))) as (out1 & Hrun1 & _ & Hitems).
  cbn in Hitems.
  eexists. exists out1, H_openMenu.
  split; [unfold rendered; run_tile; rewrite Hroom; cbn; reflexivity |].
  split; [reflexivity |].
  intros w0. exists (openMenu cm).
  split; [reflexivity |].
  change (openMenu cm)
    with {| menuDisplayed := true; button_current := Some rect |}.
  split; [unfold rendered; now rewrite Hrun1 |].
  split.
  { clear Hitems. revert Hrun1. run_tile. rewrite Hroom. cbn.
    intros [= <-]. unfold menuItems, menuItem. cbn. split_tags; reflexivity. }
  rewrite Hitems. split; [reflexivity |].
  intros item Hin. exists H_closeMenu. split; [| intros w2; reflexivity].
  unfold menuItems in Hin. cbn in Hin.
  destruct Hin as [<- | [<- | [<- | []]]]; reflexivity.
Qed.

(** X11.  With the menu open the tile renders one [ContextMenu], placed
    from the button's rectangle and the window width at that render, in
    the binary64 arithmetic of the source:
    [right = (innerWidth - rect.right) - 48], [top = rect.top - 24]; it
    has no chevron, and dismissing it runs [closeMenu]. *)
Theorem RoomOverrideTile_menu_placement cli props rect slot w room :
  getRoom cli (roomId props) = Some room ->
  exists out,
    rendered (RoomOverrideTile cli props
                {| menuDisplayed := true; button_current := Some rect |} slot w)
      = Ok out /\
    let menus := elementsOfType (Component "ContextMenu") out in
    map (prop_of "right") menus
      = [Some (PNumber (PrimFloat.sub
                          (PrimFloat.sub (innerWidth w) (rect_right rect)) 48))] /\
    map (prop_of "top") menus
      = [Some (PNumber (PrimFloat.sub (rect_top rect) 24))] /\
    map (prop_of "chevronOffset") menus = [Some (PVal (JsNumber 0))] /\
    map (prop_of "chevronFace") menus = [Some (PChevronFace ChevronFace_None)] /\
    map (prop_of "onFinished") menus = [Some (PHandler H_closeMenu)].
Proof.
  intros Hroom. unfold rendered. run_tile. rewrite Hroom. cbn.
  eexists. split; [reflexivity |].
  unfold menuItems, menuItem. cbn. split_tags; repeat split.
Qed.

(** *** The section *)

(** X12.  A mounted section shows, at every render, what its first
    render showed, however the store changes in between.  A section
    mounted while no room has an override therefore stays [null] when
    overrides appear later, and one mounted with overrides keeps a tile
    per room of the first list when they are cleared. *)
Theorem RoomOverridesSection_list_frozen props s0 later w :
  let rooms0 := getOverridenRooms s0 in
  let shown := RoomOverridesSection_body props rooms0 in
  fst (renderEach props None (s0 :: later) w)
    = Ok (repeat shown (S (List.length later))) /\
  (rooms0 = [] -> shown = None) /\
  (rooms0 <> [] ->
   exists tree, shown = Some tree /\
     elementsOfType (Component "RoomOverrideTile") tree
       = map (tileElement props) rooms0).
Proof.
  cbv zeta. split; [apply renderEach_frozen |]. split.
  - intros ->. reflexivity.
  - intros Hne.
    destruct (RoomOverridesSection_body props (getOverridenRooms s0))
      as [tree |] eqn:Hbody.
    + exists tree. split; [reflexivity |]. now apply body_tiles.
    + now apply body_null_iff in Hbody.
Qed.

Lemma tiles_Forall props (P : VNode -> Prop) rooms :
  (forall id, P (tileElement props id)) ->
  Forall P (map (tileElement props) rooms).
Proof.
  intros HP. induction rooms as [| id rooms IH]; cbn; constructor; auto.
Qed.

(** X13.  The tiles of a rendered section are keyed by the rooms of the
    list, in order and without any deduplication, and every tile is handed
    the section's own [notifyMeWith] and [playSoundFor] together with its
    room id. *)
Theorem RoomOverridesSection_tiles_props props rooms tree :
  RoomOverridesSection_body props rooms = Some tree ->
  let tiles := elementsOfType (Component "RoomOverrideTile") tree in
  map key_of tiles = map Some rooms /\
  map (prop_of "roomId") tiles = map (fun id => Some (PVal (JsString id))) rooms /\
  Forall (fun tile =>
            prop_of "notifyMeWith" tile = Some (PVal (notifyMeWith props)) /\
            prop_of "playSoundFor" tile = Some (PVal (playSoundFor props)))
         tiles.
Proof.
  intros Hbody. apply body_tiles in Hbody. destruct Hbody as [Htiles _].
  cbv zeta. rewrite Htiles, !map_map.
  split; [reflexivity |]. split; [reflexivity |].
  apply tiles_Forall. intros id. split; reflexivity.
Qed.

(** X14.  A rendered section has one [AccessibleButton]; the handler it
    carries, run in any world, opens a [QuestionDialog] titled
    "Resetting all rooms" that asks "Are you sure you want to reset all
    rooms?" with the answers "Yes" and "No" (each through [_t]), after the
    dialogs already open, and leaves the store alone. *)
Theorem RoomOverridesSection_reset_button_opens_dialog props rooms tree :
  RoomOverridesSection_body props rooms = Some tree ->
  exists h,
    map (prop_of "onClick") (elementsOfType (Component "AccessibleButton") tree)
      = [Some (PHandler h)] /\
    forall cm w, exists d w',
      dispatch h cm w = (Ok cm, w') /\
      dialogs w' = (dialogs w ++ [d])%list /\
      store w' = store w /\
      Element d = "QuestionDialog" /\
      title d = _t "Resetting all rooms" /\
      description d = _t "Are you sure you want to reset all rooms?" /\
      button d = _t "Yes" /\
      cancelButton d = _t "No".
Proof.
  intros Hbody. exists H_onResetAllRoomsClick.
  split; [exact (RoomOverridesSection_reset_button _ _ Hbody) |].
  intros cm w. do 2 eexists. split; [reflexivity |]. cbn. repeat split.
Qed.

(** X15.  Clicks on "Reset all rooms" pile up: [n] clicks leave [n] more
    dialogs open, all the same one, and neither the store nor the trace of
    its queries has changed. *)
Theorem clickResetAll_opens_n_dialogs :
  exists d, forall n w, exists w',
    clickResetAll n w = (Ok tt, w') /\
    dialogs w' = (dialogs w ++ repeat d n)%list /\
    store w' = store w /\
    storeCalls w' = storeCalls w /\
    innerWidth w' = innerWidth w.
Proof.
  eexists. intros n. induction n as [| n IH]; intros w.
  - exists w. split; [reflexivity |]. cbn. rewrite app_nil_r. repeat split.
  - cbn [clickResetAll]. unfold bind at 1.
    unfold onResetAllRoomsClick at 1, Modal_createTrackedDialog at 1.
    match goal with
    | |- context [clickResetAll n ?w1] =>
        destruct (IH w1) as (w' & Hrun & Hd & Hs & Hc & Hi)
    end.
    exists w'. rewrite Hrun. split; [reflexivity |].
    cbn [dialogs store storeCalls innerWidth] in Hd, Hs, Hc, Hi.
    rewrite Hd, Hs, Hc, Hi, <- app_assoc. repeat split.
Qed.

End MoreProperties.

(** *** The further properties at the sample environment *)

Lemma mapNotificationLevelToString_falsy_is_None_witness :
  @mapNotificationLevelToString Sample.imports JsUndefined = "None" /\
  @mapNotificationLevelToString Sample.imports (JsString "") = "None".
Proof.
  split.
  - apply (@mapNotificationLevelToString_falsy_is_None Sample.imports JsUndefined
             Sample_values_truthy). reflexivity.
  - apply (@mapNotificationLevelToString_falsy_is_None Sample.imports (JsString "")
             Sample_values_truthy). reflexivity.
Defined.

Lemma RoomOverrideTile_selected_item_witness :
  In Never menuLevels /\
  exists out st w',
    @RoomOverrideTile Sample.imports Sample.cli0 (Sample.tileProps "!a:hs")
      Sample.opened None Sample.world0 = (Ok (out, st), w') /\
    map isSelected (elementsOfType (Component "MenuItem") out)
      = [false; false; true].
Proof.
  assert (Hin : In Never menuLevels) by (right; right; left; reflexivity).
  split; [exact Hin |].
  destruct (@RoomOverrideTile_selected_item Sample.imports Sample.cli0
              (Sample.tileProps "!a:hs") {| rect_right := 900%float; rect_top := 300%float |}
              None Sample.world0 {| Room_name := "Lobby" |} Never
              Sample_values_distinct eq_refl Hin eq_refl)
    as (out & st & w' & Hrun & Hsel & _).
  exists out, st, w'. split; [exact Hrun | exact Hsel].
Defined.

Lemma RoomOverrideTile_no_override_selects_default_witness :
  exists out st w',
    @RoomOverrideTile Sample.imports Sample.cli0 (Sample.tileProps "!a:hs")
      Sample.opened (Some (JsUndefined, JsUndefined)) Sample.world0
      = (Ok (out, st), w') /\
    map isSelected (elementsOfType (Component "MenuItem") out)
      = map (@hasDefaultTag Sample.imports) (elementsOfType (Component "MenuItem") out).
Proof.
  destruct (@RoomOverrideTile_no_override_selects_default Sample.imports Sample.cli0
              (Sample.tileProps "!a:hs") {| rect_right := 900%float; rect_top := 300%float |}
              (Some (JsUndefined, JsUndefined)) Sample.world0
              {| Room_name := "Lobby" |} eq_refl eq_refl)
    as (out & st & w' & Hrun & _ & Hsame).
  exists out, st, w'. split; [exact Hrun | exact Hsame].
Defined.

Lemma RoomOverrideTile_direct_messages_override_witness :
  exists out st w',
    @RoomOverrideTile Sample.imports Sample.cli0 (Sample.tileProps "!a:hs")
      Sample.opened
      (Some (Sample.values DirectMessagesMentionsKeywords, JsUndefined))
      Sample.world0 = (Ok (out, st), w') /\
    filter isSelected (elementsOfType (Component "MenuItem") out) = [].
Proof.
  destruct (@RoomOverrideTile_direct_messages_override Sample.imports Sample.cli0
              (Sample.tileProps "!a:hs") {| rect_right := 900%float; rect_top := 300%float |}
              (Some (Sample.values DirectMessagesMentionsKeywords, JsUndefined))
              Sample.world0 {| Room_name := "Lobby" |}
              Sample_values_distinct Sample_values_truthy eq_refl eq_refl)
    as (out & st & w' & Hrun & _ & _ & Hnone).
  exists out, st, w'. split; [exact Hrun | exact Hnone].
Defined.

Lemma RoomOverrideTile_shows_name_or_id_witness :
  exists out st w',
    @RoomOverrideTile Sample.imports [("!c:hs", {| Room_name := "" |})]
      (Sample.tileProps "!c:hs") Sample.closed None Sample.world0
      = (Ok (out, st), w') /\
    nth_error (children_of out) 1
      = Some (VElement (Host "span") None [] [VText "!c:hs"]).
Proof.
  assert (Hready : buttonReady Sample.closed) by (intros H; discriminate H).
  destruct (@RoomOverrideTile_shows_name_or_id Sample.imports
              [("!c:hs", {| Room_name := "" |})] (Sample.tileProps "!c:hs")
              Sample.closed None Sample.world0 {| Room_name := "" |}
              eq_refl Hready)
    as (out & st & w' & Hrun & Hname).
  exists out, st, w'. split; [exact Hrun | exact Hname].
Defined.

Lemma RoomOverrideTile_open_menu_needs_button_witness :
  fst (@RoomOverrideTile Sample.imports Sample.cli0 (Sample.tileProps "!a:hs")
         {| menuDisplayed := true; button_current := None |} None Sample.world0)
    = Throw (TypeError_null_property "button.current" "getBoundingClientRect").
Proof.
  rewrite (@RoomOverrideTile_open_menu_needs_button Sample.imports Sample.cli0
             (Sample.tileProps "!a:hs")
             {| menuDisplayed := true; button_current := None |} None
             Sample.world0 eq_refl eq_refl).
  reflexivity.
Defined.

Lemma RoomOverrideTile_closed_menu_witness :
  exists out,
    rendered (@RoomOverrideTile Sample.imports Sample.cli0 (Sample.tileProps "!a:hs")
                Sample.closed None Sample.world0) = Ok out /\
    elementsOfType (Component "MenuItem") out = [].
Proof.
  destruct (@RoomOverrideTile_closed_menu Sample.imports Sample.cli0
              (Sample.tileProps "!a:hs") None None Sample.world0
              {| Room_name := "Lobby" |} eq_refl)
    as (out & Hrun & _ & Hitems & _).
  exists out. split; [exact Hrun | exact Hitems].
Defined.

Lemma RoomOverrideTile_rerender_ignores_store_witness :
  rendered (@RoomOverrideTile Sample.imports Sample.cli0 (Sample.tileProps "!a:hs")
              Sample.opened (Some (Sample.values Never, JsUndefined))
              Sample.world0)
  = rendered (@RoomOverrideTile Sample.imports Sample.cli0 (Sample.tileProps "!a:hs")
              Sample.opened (Some (Sample.values Never, JsUndefined))
              (@replaceStore Sample.imports [] Sample.world0)).
Proof.
  apply (@RoomOverrideTile_rerender_ignores_store Sample.imports Sample.cli0
           (Sample.tileProps "!a:hs") Sample.opened
           (Sample.values Never, JsUndefined) Sample.world0
           (@replaceStore Sample.imports [] Sample.world0)).
  reflexivity.
Defined.

Lemma RoomOverrideTile_open_then_select_witness :
  exists out0,
    rendered (@RoomOverrideTile Sample.imports Sample.cli0 (Sample.tileProps "!a:hs")
                {| menuDisplayed := false;
                   button_current := Some {| rect_right := 900%float; rect_top := 300%float |} |}
                None Sample.world0) = Ok out0.
Proof.
  destruct (@RoomOverrideTile_open_then_select Sample.imports Sample.cli0
              (Sample.tileProps "!a:hs") {| rect_right := 900%float; rect_top := 300%float |}
              None Sample.world0 {| Room_name := "Lobby" |} eq_refl)
    as (out0 & _ & _ & Hrun & _).
  exists out0. exact Hrun.
Defined.

(** A wide window and a fractional rectangle: the subtraction rounds as
    binary64 does ([2^53 + 1] is not representable). *)
Lemma RoomOverrideTile_menu_placement_witness :
  let w : @World Sample.imports :=
    {| store := Sample.store0 : @Store Sample.imports; storeCalls := [];
       innerWidth := 9007199254740992%float; dialogs := [] |} in
  let cm :=
    {| menuDisplayed := true;
       button_current := Some {| rect_right := (-1)%float;
                                 rect_top := 0.5%float |} |} in
  exists out,
    rendered (@RoomOverrideTile Sample.imports Sample.cli0 (Sample.tileProps "!a:hs")
                cm None w) = Ok out /\
    map (prop_of "right") (elementsOfType (Component "ContextMenu") out)
      = [Some (PNumber 9007199254740944%float)] /\
    map (prop_of "top") (elementsOfType (Component "ContextMenu") out)
      = [Some (PNumber (-23.5)%float)].
Proof.
  intros w cm.
  destruct (@RoomOverrideTile_menu_placement Sample.imports Sample.cli0
              (Sample.tileProps "!a:hs")
              {| rect_right := (-1)%float; rect_top := 0.5%float |}
              None w {| Room_name := "Lobby" |} eq_refl)
    as (out & Hrun & Hright & Htop & _).
  exists out. split; [exact Hrun |]. split; [exact Hright | exact Htop].
Defined.

Lemma RoomOverridesSection_tiles_props_witness :
  exists tree,
    @RoomOverridesSection_body Sample.imports Sample.props0 ["!a:hs"; "!b:hs"]
      = Some tree /\
    map key_of (elementsOfType (Component "RoomOverrideTile") tree)
      = [Some "!a:hs"; Some "!b:hs"].
Proof.
  eexists. split; [reflexivity |].
  apply (@RoomOverridesSection_tiles_props Sample.imports Sample.props0
           ["!a:hs"; "!b:hs"] _ eq_refl).
Defined.

Lemma RoomOverridesSection_reset_button_opens_dialog_witness :
  exists tree h,
    @RoomOverridesSection_body Sample.imports Sample.props0 ["!a:hs"; "!b:hs"]
      = Some tree /\
    map (prop_of "onClick") (elementsOfType (Component "AccessibleButton") tree)
      = [Some (PHandler h)].
Proof.
  eexists.
  destruct (@RoomOverridesSection_reset_button_opens_dialog Sample.imports
              Sample.props0 ["!a:hs"; "!b:hs"] _ eq_refl) as (h & Hclick & _).
  exists h. split; [reflexivity | exact Hclick].
Defined.
